(** * pgmpy.continuous.factors.ContinuousFactor

    A shallow embedding of the class [ContinuousFactor] (a subclass of
    [scipy.stats.rv_continuous] that wraps a user supplied density function)
    and the properties of its three methods: [__init__], [_pdf] and
    [discretize].

    The class is three lines of executable Python.  What those lines do is
    decided by the object model of the language: attribute lookup on an
    instance, calls of functions, bound methods and classes, the subclass test
    and exceptions.  The embedding therefore starts with a small, executable
    model of that part of Python, over which the three methods are written the
    way the source writes them. *)

From Stdlib Require Import ZArith String List Floats.PrimFloat DecimalString ssreflect.
From stdpp Require Import base option strings gmap.

Set Warnings "-register-all,-rewrite-rw".

Local Open Scope string_scope.
Local Open Scope Z_scope.

(* ===================================================================== *)
(** ** Values, objects and the heap *)
(* ===================================================================== *)

(** Objects live in a heap and are named by their location. *)
Abbreviation loc := positive.

(** Classes and functions are named by their qualified name. *)
Abbreviation class_id := string.
Abbreviation fun_id := string.

(** The values the adapter handles.  A Python [float] is an IEEE 754 binary64
    number, which is what [PrimFloat.float] is. *)
Inductive value : Type :=
| VNone
| VBool (b : bool)
| VInt (z : Z)
| VFloat (x : float)
| VStr (s : string)
| VList (vs : list value)
| VClass (c : class_id)
| VFun (f : fun_id)
| VBound (f : fun_id) (self : loc)
| VObj (l : loc).

(** An instance: its class and its [__dict__]. *)
Record obj : Type := Obj {
  obj_class : class_id;
  obj_dict : gmap string value
}.

Abbreviation heap := (gmap loc obj).

(** Keyword arguments, in call order. *)
Abbreviation kwargs := (list (string * value)).

(** Exceptions: the exception class and its message. *)
Record exn : Type := Exn {
  exn_class : string;
  exn_msg : string
}.

Definition TypeError (msg : string) : exn := Exn "TypeError" msg.
Definition AttributeError (msg : string) : exn := Exn "AttributeError" msg.

Inductive outcome (A : Type) : Type :=
| Ok (a : A)
| Raise (e : exn).
Arguments Ok {A} a.
Arguments Raise {A} e.

(** A call that the adapter's own code issues, kept in a log so that "this
    was never called" can be stated. *)
Inductive event : Type :=
| EvCall (callee : value) (args : list value) (kw : kwargs)
| EvNew (c : class_id) (l : loc).

Record state : Type := State {
  st_heap : heap;
  st_log : list event
}.

(** Code outside the class (the density function, the discretizers, the
    library) is a state transformer on the heap that returns or raises. *)
Definition callable : Type := list value → kwargs → heap → outcome value * heap.

(** A class: its method resolution order ([__mro__], the class itself
    first), whether it is abstract, and the attributes its body defines. *)
Record class_def : Type := ClassDef {
  cls_mro : list class_id;
  cls_abstract : bool;
  cls_attrs : gmap string value
}.

(** The program around the adapter: the classes, the bodies of the functions
    and [str] on the values whose text depends on the run (floats, addresses
    of objects and functions). *)
Record env : Type := Env {
  classes : class_id → class_def;
  fun_body : fun_id → callable;
  str_opaque : value → string
}.

(* ===================================================================== *)
(** ** The monad of the adapter's code: state and exceptions *)
(* ===================================================================== *)

Definition M (A : Type) : Type := state → outcome A * state.

Definition ret {A} (a : A) : M A := λ s, (Ok a, s).
Definition raise {A} (e : exn) : M A := λ s, (Raise e, s).
Definition bind {A B} (m : M A) (k : A → M B) : M B :=
  λ s, match m s with
       | (Ok a, s') => k a s'
       | (Raise e, s') => (Raise e, s')
       end.

Declare Scope py_scope.
Delimit Scope py_scope with py.
Notation "x <- m ;; k" := (bind m (λ x, k))
  (at level 100, m at next level, right associativity) : py_scope.
Notation "m ;;; k" := (bind m (λ _, k))
  (at level 100, right associativity) : py_scope.
Local Open Scope py_scope.

Definition get_heap : M heap := λ s, (Ok (st_heap s), s).
Definition put_heap (h : heap) : M unit := λ s, (Ok tt, State h (st_log s)).
Definition log (e : event) : M unit :=
  λ s, (Ok tt, State (st_heap s) (st_log s ++ [e])).

Definition lift {A} (r : outcome A) : M A := λ s, (r, s).

(** Running the body of a function: the body works on the heap, the log is
    the caller's. *)
Definition run_body (f : callable) (args : list value) (kw : kwargs) : M value :=
  λ s, let '(r, h') := f args kw (st_heap s) in (r, State h' (st_log s)).

(* ===================================================================== *)
(** ** The object model *)
(* ===================================================================== *)

Definition type_name (h : heap) (v : value) : string :=
  match v with
  | VNone => "NoneType"
  | VBool _ => "bool"
  | VInt _ => "int"
  | VFloat _ => "float"
  | VStr _ => "str"
  | VList _ => "list"
  | VClass _ => "type"
  | VFun _ => "function"
  | VBound _ _ => "method"
  | VObj l => match h !! l with Some o => obj_class o | None => "object" end
  end.

(** [str(v)].  The text of a class is its qualified name in [<class '...'>];
    the texts that depend on the run come from the environment. *)
Definition py_str (E : env) (v : value) : string :=
  match v with
  | VNone => "None"
  | VBool true => "True"
  | VBool false => "False"
  | VInt z => NilZero.string_of_int (Z.to_int z)
  | VStr s => s
  | VClass c => "<class '" ++ c ++ "'>"
  | _ => str_opaque E v
  end.

(** The first class of a method resolution order that defines [name]. *)
Fixpoint mro_lookup (E : env) (mro : list class_id) (name : string) : option value :=
  match mro with
  | [] => None
  | c :: rest =>
      match cls_attrs (classes E c) !! name with
      | Some v => Some v
      | None => mro_lookup E rest name
      end
  end.

Definition class_lookup (E : env) (c : class_id) (name : string) : option value :=
  mro_lookup E (cls_mro (classes E c)) name.

(** A function found on the class of an instance is bound to the instance. *)
Definition bind_method (l : loc) (v : value) : value :=
  match v with
  | VFun f => VBound f l
  | _ => v
  end.

Definition no_attribute (h : heap) (v : value) (name : string) : exn :=
  AttributeError ("'" ++ type_name h v ++ "' object has no attribute '" ++ name ++ "'").

(** [v.name].  On an instance the [__dict__] of the instance is read first
    and the classes of its [__mro__] after it (the classes of the model define
    functions and plain values, no data descriptors).  The attributes of the
    built-in values are not part of the model: none of them has an attribute
    of a name the adapter reads. *)
Definition getattr (E : env) (v : value) (name : string) : M value :=
  h <- get_heap;;
  match v with
  | VObj l =>
      match h !! l with
      | Some o =>
          match obj_dict o !! name with
          | Some x => ret x
          | None =>
              match class_lookup E (obj_class o) name with
              | Some x => ret (bind_method l x)
              | None => raise (no_attribute h v name)
              end
          end
      | None => raise (no_attribute h v name)
      end
  | VClass c =>
      match class_lookup E c name with
      | Some x => ret x
      | None => raise (AttributeError
                  ("type object '" ++ c ++ "' has no attribute '" ++ name ++ "'"))
      end
  | _ => raise (no_attribute h v name)
  end.

(** [v.name = x] on an instance. *)
Definition setattr (v : value) (name : string) (x : value) : M unit :=
  h <- get_heap;;
  match v with
  | VObj l =>
      match h !! l with
      | Some o => put_heap (<[l := Obj (obj_class o) (<[name := x]> (obj_dict o))]> h)
      | None => raise (no_attribute h v name)
      end
  | _ => raise (no_attribute h v name)
  end.

(** Calling a function of the environment: the call is logged, the body runs. *)
Definition call_fun (E : env) (callee : value) (f : fun_id)
    (args : list value) (kw : kwargs) : M value :=
  log (EvCall callee args kw);;; run_body (fun_body E f) args kw.

(** Calling a class [c] with [args] and [kw]: a new object, then [__init__] found
    along the [__mro__].  Without an [__init__] the one of [object] runs,
    which takes no argument. *)
Definition instantiate (E : env) (c : class_id) (args : list value) (kw : kwargs)
    : M value :=
  if cls_abstract (classes E c)
  then raise (TypeError ("Can't instantiate abstract class " ++ c))
  else
    h <- get_heap;;
    let l := fresh (dom h) in
    put_heap (<[l := Obj c ∅]> h);;;
    log (EvNew c l);;;
    match class_lookup E c "__init__" with
    | Some (VFun f) =>
        r <- call_fun E (VBound f l) f (VObj l :: args) kw;;
        match r with
        | VNone => ret (VObj l)
        | _ => raise (TypeError "__init__() should return None")
        end
    | Some _ => raise (TypeError "__init__ is not a function")
    | None =>
        match args, kw with
        | [], [] => ret (VObj l)
        | _, _ => raise (TypeError (c ++ "() takes no arguments"))
        end
    end.

(** Calling [callee] with [args] and [kw]. *)
Definition call (E : env) (callee : value) (args : list value) (kw : kwargs)
    : M value :=
  match callee with
  | VFun f => call_fun E callee f args kw
  | VBound f l => call_fun E callee f (VObj l :: args) kw
  | VClass c => instantiate E c args kw
  | VObj l =>
      h <- get_heap;;
      match h !! l with
      | Some o =>
          match class_lookup E (obj_class o) "__call__" with
          | Some (VFun f) => call_fun E (VBound f l) f (VObj l :: args) kw
          | _ => raise (TypeError ("'" ++ type_name h callee ++ "' object is not callable"))
          end
      | None => raise (TypeError ("'" ++ type_name h callee ++ "' object is not callable"))
      end
  | _ =>
      h <- get_heap;;
      raise (TypeError ("'" ++ type_name h callee ++ "' object is not callable"))
  end.

(** [v.name(args, kw)]: the attribute is looked up, what is found is called. *)
Definition call_attr (E : env) (v : value) (name : string)
    (args : list value) (kw : kwargs) : M value :=
  f <- getattr E v name;;
  call E f args kw.

(** [issubclass(v, base)] for a class [base]: [base] is in the [__mro__] of
    [v]; a [v] that is not a class is a [TypeError] of the built-in. *)
Definition issubclass (E : env) (v : value) (base : class_id) : outcome bool :=
  match v with
  | VClass c => Ok (bool_decide (base ∈ cls_mro (classes E c)))
  | _ => Raise (TypeError "issubclass() arg 1 must be a class")
  end.

(** [kw.get(name, d)] *)
Fixpoint kw_get (name : string) (kw : kwargs) (d : value) : value :=
  match kw with
  | [] => d
  | (k, v) :: rest => if String.eqb k name then v else kw_get name rest d
  end.

(* ===================================================================== *)
(** ** The library base class *)
(* ===================================================================== *)

Definition rv_continuous : class_id := "scipy.stats.rv_continuous".

(** [rv_continuous.__init__(self, momtype=1, a=None, b=None, ...)] of the
    library, as far as the three keywords go that the adapter passes: the
    bounds are stored, a bound that is [None] becomes minus and plus infinity,
    and the moment type is stored.  It calls no method of the instance with
    an argument and reads no attribute [pdf]. *)
Definition rv_continuous_init (self : value) (kw : kwargs) : M value :=
  let momtype := kw_get "momtype" kw (VInt 1) in
  let a := kw_get "a" kw VNone in
  let b := kw_get "b" kw VNone in
  setattr self "a" a;;;
  setattr self "b" b;;;
  match a with VNone => setattr self "a" (VFloat neg_infinity) | _ => ret tt end;;;
  match b with VNone => setattr self "b" (VFloat infinity) | _ => ret tt end;;;
  setattr self "moment_type" momtype;;;
  ret VNone.

(* ===================================================================== *)
(** ** class ContinuousFactor(rv_continuous) *)
(* ===================================================================== *)

Module ContinuousFactor.

Definition class_name : class_id :=
  "pgmpy.continuous.factors.ContinuousFactor.ContinuousFactor".

(** [from pgmpy.continuous.discretize import BaseDiscretizer] *)
Definition BaseDiscretizer : class_id :=
  "pgmpy.continuous.discretize.BaseDiscretizer".

(** [def __init__(self, pdf, lb=None, ub=None)]: an argument that is not
    given is [None]. *)
Definition __init__ (self pdf : value) (lb ub : option value) : M value :=
  let lb := default VNone lb in
  let ub := default VNone ub in
  (* self.pdf = pdf *)
  setattr self "pdf" pdf;;;
  (* super(ContinuousFactor, self).__init__(momtype=0, a=lb, b=ub) *)
  let kw := [("momtype", VInt 0); ("a", lb); ("b", ub)] in
  log (EvCall (VFun "scipy.stats.rv_continuous.__init__") [self] kw);;;
  rv_continuous_init self kw.

(** [ContinuousFactor(pdf, lb, ub)]: a new instance of the class, on which
    [__init__] runs. *)
Definition new (pdf : value) (lb ub : option value) : M value :=
  h <- get_heap;;
  let l := fresh (dom h) in
  put_heap (<[l := Obj class_name ∅]> h);;;
  log (EvNew class_name l);;;
  r <- __init__ (VObj l) pdf lb ub;;
  match r with
  | VNone => ret (VObj l)
  | _ => raise (TypeError "__init__() should return None")
  end.

(** [def _pdf(self, *args): return self.pdf( *args )] *)
Definition _pdf (E : env) (self : value) (args : list value) : M value :=
  call_attr E self "pdf" args [].

(** [def discretize(self, method, *args, **kwargs)] *)
Definition discretize (E : env) (self method : value)
    (args : list value) (kw : kwargs) : M value :=
  (* if not issubclass(method, BaseDiscretizer): *)
  b <- lift (issubclass E method BaseDiscretizer);;
  if negb b then
    (* raise TypeError("{} must be Discretizer class.".format(method)) *)
    raise (TypeError (py_str E method ++ " must be Discretizer class."))
  else
    (* return method(self, *args, **kwargs).get_discrete_values() *)
    inst <- call E method (self :: args) kw;;
    call_attr E inst "get_discrete_values" [] [].

End ContinuousFactor.

(* ===================================================================== *)
(** ** A program around the adapter, for the examples *)
(* ===================================================================== *)

Module Demo.

(** [x > k] and [x < k] for an integer literal [k] of the source, [kf] its
    value as a float: integers compare as integers, a float with the float
    of the literal, anything else is a [TypeError]. *)
Definition gt_lit (x : value) (k : Z) (kf : float) : outcome bool :=
  match x with
  | VInt z => Ok (k <? z)
  | VBool b => Ok (k <? Z.b2z b)
  | VFloat f => Ok (PrimFloat.ltb kf f)
  | _ => Raise (TypeError "'>' not supported between these instances")
  end.

Definition lt_lit (x : value) (k : Z) (kf : float) : outcome bool :=
  match x with
  | VInt z => Ok (z <? k)
  | VBool b => Ok (Z.b2z b <? k)
  | VFloat f => Ok (PrimFloat.ltb f kf)
  | _ => Raise (TypeError "'<' not supported between these instances")
  end.

(** [custom_pdf = lambda x : 0.5 if x > -1 and x < 1 else 0], the density of
    the docstring of [__init__]. *)
Definition custom_pdf : callable := λ args kw h,
  match args, kw with
  | [x], [] =>
      match gt_lit x (-1) (-1)%float with
      | Raise e => (Raise e, h)
      | Ok false => (Ok (VInt 0), h)
      | Ok true =>
          match lt_lit x 1 1%float with
          | Raise e => (Raise e, h)
          | Ok false => (Ok (VInt 0), h)
          | Ok true => (Ok (VFloat 0.5%float), h)
          end
      end
  | _, _ => (Raise (TypeError "<lambda>() takes 1 positional argument"), h)
  end.

(** [bad_pdf = lambda x : 1 / 0], a density that raises. *)
Definition bad_pdf : callable := λ args kw h,
  match args, kw with
  | [x], [] => (Raise (Exn "ZeroDivisionError" "division by zero"), h)
  | _, _ => (Raise (TypeError "<lambda>() takes 1 positional argument"), h)
  end.

Definition heap_setattr (h : heap) (l : loc) (name : string) (x : value) : heap :=
  match h !! l with
  | Some o => <[l := Obj (obj_class o) (<[name := x]> (obj_dict o))]> h
  | None => h
  end.

(** [BaseDiscretizer.__init__(self, factor, low, high, cardinality)] stores
    its four arguments. *)
Definition discretizer_init : callable := λ args kw h,
  match args, kw with
  | [VObj l; factor; low; high; cardinality], [] =>
      let h1 := heap_setattr h l "factor" factor in
      let h2 := heap_setattr h1 l "low" low in
      let h3 := heap_setattr h2 l "high" high in
      (Ok VNone, heap_setattr h3 l "cardinality" cardinality)
  | _, _ => (Raise (TypeError "__init__() takes 5 positional arguments"), h)
  end.

(** A discretizer for the examples: its values are the arguments it was
    built with. *)
Definition echo_values : callable := λ args kw h,
  match args, kw with
  | [VObj l], [] =>
      match h !! l with
      | Some o =>
          match obj_dict o !! "factor", obj_dict o !! "low",
                obj_dict o !! "high", obj_dict o !! "cardinality" with
          | Some f, Some lo, Some hi, Some n => (Ok (VList [f; lo; hi; n]), h)
          | _, _, _, _ => (Raise (AttributeError "discretizer is not initialised"), h)
          end
      | None => (Raise (AttributeError "discretizer is not initialised"), h)
      end
  | _, _ => (Raise (TypeError "get_discrete_values() takes 1 positional argument"), h)
  end.

(** What the public [pdf] of the library answers outside the stored bounds
    (for float bounds and a float point): zero.  Inside the bounds the
    library goes on to [_pdf], which the examples do not need. *)
Definition library_pdf : callable := λ args kw h,
  match args, kw with
  | [VObj l; VFloat x], [] =>
      match h !! l with
      | Some o =>
          match obj_dict o !! "a", obj_dict o !! "b" with
          | Some (VFloat a), Some (VFloat b) =>
              if PrimFloat.ltb x a || PrimFloat.ltb b x
              then (Ok (VFloat 0%float), h)
              else (Raise (Exn "NotImplementedError" "inside the support"), h)
          | _, _ => (Raise (Exn "NotImplementedError" "bounds that are not floats"), h)
          end
      | None => (Raise (Exn "NotImplementedError" "no instance"), h)
      end
  | _, _ => (Raise (Exn "NotImplementedError" "other arguments"), h)
  end.

Definition EchoDiscretizer : class_id := "tests.EchoDiscretizer".
Definition Unrelated : class_id := "tests.Unrelated".

Definition classes (c : class_id) : class_def :=
  if String.eqb c rv_continuous then
    ClassDef [rv_continuous; "object"] false
      {[ "pdf" := VFun "scipy.stats.rv_continuous.pdf" ]}
  else if String.eqb c ContinuousFactor.class_name then
    ClassDef [ContinuousFactor.class_name; rv_continuous; "object"] false ∅
  else if String.eqb c ContinuousFactor.BaseDiscretizer then
    ClassDef [ContinuousFactor.BaseDiscretizer; "object"] true
      {[ "__init__" := VFun "BaseDiscretizer.__init__" ]}
  else if String.eqb c EchoDiscretizer then
    ClassDef [EchoDiscretizer; ContinuousFactor.BaseDiscretizer; "object"] false
      {[ "get_discrete_values" := VFun "EchoDiscretizer.get_discrete_values" ]}
  else ClassDef [c; "object"] false ∅.

Definition fun_body (f : fun_id) : callable :=
  if String.eqb f "custom_pdf" then custom_pdf
  else if String.eqb f "bad_pdf" then bad_pdf
  else if String.eqb f "BaseDiscretizer.__init__" then discretizer_init
  else if String.eqb f "EchoDiscretizer.get_discrete_values" then echo_values
  else if String.eqb f "scipy.stats.rv_continuous.pdf" then library_pdf
  else λ _ _ h, (Raise (Exn "NameError" ("name '" ++ f ++ "' is not defined")), h).

Definition E : env := Env classes fun_body (λ _, "<object>").

(** The state before anything is built. *)
Definition s0 : state := State ∅ [].

(** [node = ContinuousFactor(custom_pdf, -3, 3)], the example of the
    docstring, and the state it leaves. *)
Definition node_built : outcome value * state :=
  ContinuousFactor.new (VFun "custom_pdf") (Some (VInt (-3))) (Some (VInt 3)) s0.
Definition node : value := VObj 1.
Definition s_node : state := node_built.2.

(** [ContinuousFactor(bad_pdf)] *)
Definition s_bad : state := (ContinuousFactor.new (VFun "bad_pdf") None None s0).2.

(** [ContinuousFactor(custom_pdf, -0.5, 0.5)]: bounds narrower than the
    density. *)
Definition s_narrow : state :=
  (ContinuousFactor.new (VFun "custom_pdf")
     (Some (VFloat (-0.5)%float)) (Some (VFloat 0.5%float)) s0).2.

End Demo.

(** The example program with one more discretizer, which builds a helper
    object of its own while it computes its values. *)
Module DemoAlloc.

Definition AllocDiscretizer : class_id := "tests.AllocDiscretizer".

(** [get_discrete_values] of that discretizer: a new helper object, returned
    in a list. *)
Definition alloc_values : callable := λ args kw h,
  match args, kw with
  | [VObj l], [] =>
      let l' := fresh (dom h) in
      (Ok (VList [VObj l']), <[l' := Obj "tests.Helper" ∅]> h)
  | _, _ => (Raise (TypeError "get_discrete_values() takes 1 positional argument"), h)
  end.

Definition classes (c : class_id) : class_def :=
  if String.eqb c AllocDiscretizer then
    ClassDef [AllocDiscretizer; ContinuousFactor.BaseDiscretizer; "object"] false
      {[ "get_discrete_values" := VFun "AllocDiscretizer.get_discrete_values" ]}
  else Demo.classes c.

Definition fun_body (f : fun_id) : callable :=
  if String.eqb f "AllocDiscretizer.get_discrete_values" then alloc_values
  else Demo.fun_body f.

Definition E : env := Env classes fun_body (λ _, "<object>").

End DemoAlloc.

(* ===================================================================== *)
(** ** Notions of the statements *)
(* ===================================================================== *)

(** The discretization the specification describes: build [D(adapter, args,
    kw)] and ask the instance for its discrete values. *)
Definition direct_discretize (E : env) (D : class_id) (adapter : value)
    (args : list value) (kw : kwargs) : M value :=
  inst <- instantiate E D (adapter :: args) kw;;
  call_attr E inst "get_discrete_values" [] [].

(** What an adapter shows of itself: the stored density function and the two
    bounds of its support. *)
Definition adapter_view (h : heap) (l : loc)
    : option (option value * option value * option value) :=
  (λ o, (obj_dict o !! "pdf", obj_dict o !! "a", obj_dict o !! "b")) <$> h !! l.

(** The code outside the class leaves the adapter at [l] as it is: whenever
    an object lives at [l], a run of a function keeps its density function
    and bounds.  Nothing is asked of the heaps in which [l] is free, so the
    functions may allocate objects of their own. *)
Definition externals_preserve (E : env) (l : loc) : Prop :=
  ∀ f args kw h,
    is_Some (h !! l) →
    adapter_view (fun_body E f args kw h).2 l = adapter_view h l.

(** A function whose result depends on its arguments only and that leaves the
    heap alone. *)
Definition pure_callable (f : callable) : Prop :=
  ∃ g : list value → kwargs → outcome value, ∀ args kw h, f args kw h = (g args kw, h).

(** [sub in s] on strings. *)
Fixpoint contains (sub s : string) : bool :=
  String.prefix sub s ||
  match s with
  | EmptyString => false
  | String _ rest => contains sub rest
  end.

(** The message of an error names a value when the text of the value is part
    of it. *)
Definition names_value (E : env) (msg : string) (v : value) : Prop :=
  contains (py_str E v) msg = true.

(** The [__dict__] the library initialiser leaves. *)
Definition init_dict (d : gmap string value) (momtype a b : value)
    : gmap string value :=
  let d2 := <["b" := b]> (<["a" := a]> d) in
  let d3 := match a with VNone => <["a" := VFloat neg_infinity]> d2 | _ => d2 end in
  let d4 := match b with VNone => <["b" := VFloat infinity]> d3 | _ => d3 end in
  <["moment_type" := momtype]> d4.

(** The object a construction leaves and the events it logs. *)
Definition built (pdf : value) (lb ub : option value) : obj :=
  Obj ContinuousFactor.class_name
    (init_dict (<["pdf" := pdf]> ∅) (VInt 0) (default VNone lb) (default VNone ub)).

Definition built_log (l : loc) (lb ub : option value) : list event :=
  [EvNew ContinuousFactor.class_name l;
   EvCall (VFun "scipy.stats.rv_continuous.__init__") [VObj l]
     [("momtype", VInt 0); ("a", default VNone lb); ("b", default VNone ub)]].

(** The bound the library keeps for an argument of the constructor. *)
Definition stored_bound (unbounded : float) (bound : option value) : value :=
  match bound with
  | None | Some VNone => VFloat unbounded
  | Some v => v
  end.

(** The values that are data and nothing one can call. *)
Definition is_plain_data (v : value) : bool :=
  match v with
  | VNone | VBool _ | VInt _ | VFloat _ | VStr _ | VList _ => true
  | _ => false
  end.

Definition is_class (v : value) : bool :=
  match v with
  | VClass _ => true
  | _ => false
  end.

(* ===================================================================== *)
(** ** The monad and the object model: basic facts *)
(* ===================================================================== *)

Ltac unfold_monad :=
  unfold bind, ret, raise, lift, get_heap, put_heap, log, run_body in *.

Section ObjectModel.
Context (E : env).

Lemma bind_ok {A B} (m : M A) (k : A → M B) s a s' :
  m s = (Ok a, s') → bind m k s = k a s'.
Proof. intros H. unfold bind. by rewrite H. Qed.

Lemma bind_raise {A B} (m : M A) (k : A → M B) s e s' :
  m s = (Raise e, s') → bind m k s = (Raise e, s').
Proof. intros H. unfold bind. by rewrite H. Qed.

(** Reading an attribute leaves the state as it is. *)
Lemma getattr_state v name s : (getattr E v name s).2 = s.
Proof.
  unfold getattr. unfold_monad. simpl.
  destruct v; simpl; try done; repeat case_match; done.
Qed.

(** An attribute of the instance wins over the class. *)
Lemma getattr_instance l o name x s :
  st_heap s !! l = Some o →
  obj_dict o !! name = Some x →
  getattr E (VObj l) name s = (Ok x, s).
Proof.
  intros Hl Hx. unfold getattr. unfold_monad. simpl. by rewrite Hl Hx.
Qed.

Lemma setattr_obj l o name x s :
  st_heap s !! l = Some o →
  setattr (VObj l) name x s =
    (Ok tt, State (<[l := Obj (obj_class o) (<[name := x]> (obj_dict o))]> (st_heap s))
                  (st_log s)).
Proof. intros Hl. unfold setattr. unfold_monad. simpl. by rewrite Hl. Qed.

Lemma call_attr_instance l o name f args kw s :
  st_heap s !! l = Some o →
  obj_dict o !! name = Some f →
  call_attr E (VObj l) name args kw s = call E f args kw s.
Proof.
  intros Hl Hf. unfold call_attr.
  by rewrite (bind_ok _ _ _ _ _ (getattr_instance _ _ _ _ _ Hl Hf)).
Qed.

End ObjectModel.

(* ===================================================================== *)
(** ** Construction *)
(* ===================================================================== *)

Section Construction.

Lemma setattr_over l c d name x h lg :
  setattr (VObj l) name x (State (<[l := Obj c d]> h) lg) =
    (Ok tt, State (<[l := Obj c (<[name := x]> d)]> h) lg).
Proof.
  erewrite setattr_obj; last by (simpl; apply lookup_insert_eq).
  simpl. by rewrite insert_insert_eq.
Qed.

Lemma state_at l o s :
  st_heap s !! l = Some o →
  s = State (<[l := Obj (obj_class o) (obj_dict o)]> (st_heap s)) (st_log s).
Proof.
  intros Hl. destruct s as [h lg], o as [c d]. simpl in *. by rewrite insert_id.
Qed.

Lemma rv_continuous_init_run l o momtype a b s :
  st_heap s !! l = Some o →
  rv_continuous_init (VObj l) [("momtype", momtype); ("a", a); ("b", b)] s =
    (Ok VNone,
     State (<[l := Obj (obj_class o) (init_dict (obj_dict o) momtype a b)]> (st_heap s))
           (st_log s)).
Proof.
  intros Hl. rewrite {1}(state_at _ _ _ Hl).
  unfold rv_continuous_init, init_dict. simpl.
  destruct a, b; unfold bind, ret; rewrite ?setattr_over; reflexivity.
Qed.

Lemma new_run pdf lb ub s :
  let l := fresh (dom (st_heap s)) in
  ContinuousFactor.new pdf lb ub s =
    (Ok (VObj l),
     State (<[l := built pdf lb ub]> (st_heap s)) (st_log s ++ built_log l lb ub)).
Proof.
  intros l. unfold ContinuousFactor.new, ContinuousFactor.__init__, built, built_log.
  unfold bind at 1. simpl. fold l.
  unfold bind at 1. simpl. unfold bind at 1. simpl.
  unfold bind at 1. unfold bind at 1.
  rewrite setattr_over. unfold bind at 1. simpl.
  erewrite rv_continuous_init_run; last by (simpl; apply lookup_insert_eq).
  simpl. unfold ret. by rewrite insert_insert_eq -app_assoc.
Qed.

Lemma built_pdf pdf lb ub : obj_dict (built pdf lb ub) !! "pdf" = Some pdf.
Proof.
  unfold built, init_dict. simpl.
  destruct (default VNone lb), (default VNone ub); by simplify_map_eq.
Qed.

Lemma built_a pdf lb ub :
  obj_dict (built pdf lb ub) !! "a" = Some (stored_bound neg_infinity lb).
Proof.
  unfold built, init_dict, stored_bound. simpl.
  destruct lb as [[]|], (default VNone ub); by simplify_map_eq.
Qed.

Lemma built_b pdf lb ub :
  obj_dict (built pdf lb ub) !! "b" = Some (stored_bound infinity ub).
Proof.
  unfold built, init_dict, stored_bound. simpl.
  destruct ub as [[]|], (default VNone lb); by simplify_map_eq.
Qed.

Lemma built_moment_type pdf lb ub :
  obj_dict (built pdf lb ub) !! "moment_type" = Some (VInt 0).
Proof. unfold built, init_dict. simpl. by simplify_map_eq. Qed.

End Construction.

Lemma prefix_app (a b : string) : String.prefix a (a ++ b) = true.
Proof.
  induction a as [|c a IH]; simpl; first by destruct b.
  destruct (Ascii.ascii_dec c c); [exact IH | done].
Qed.

Lemma contains_prefix (a b : string) : contains a (a ++ b) = true.
Proof.
  assert (Hc : ∀ s, String.prefix a s = true → contains a s = true)
    by (intros [|c s] Hp; cbn [contains]; by rewrite Hp).
  apply Hc, prefix_app.
Qed.

(* ===================================================================== *)
(** ** What the adapter's code leaves of an adapter *)
(* ===================================================================== *)

Section Preservation.
Context (E : env) (l : loc).
Hypothesis Hext : externals_preserve E l.

Lemma adapter_view_insert_ne (h : heap) (l' : loc) (o : obj) :
  l' ≠ l → adapter_view (<[l' := o]> h) l = adapter_view h l.
Proof. intros Hne. unfold adapter_view. by rewrite lookup_insert_ne. Qed.

Lemma adapter_view_allocated (h h' : heap) :
  adapter_view h' l = adapter_view h l → is_Some (h !! l) → is_Some (h' !! l).
Proof.
  unfold adapter_view. intros Heq [o Ho]. rewrite Ho in Heq. simpl in Heq.
  destruct (h' !! l); [by eexists | done].
Qed.

Lemma call_fun_view callee f args kw s :
  is_Some (st_heap s !! l) →
  adapter_view (st_heap (call_fun E callee f args kw s).2) l =
  adapter_view (st_heap s) l.
Proof.
  intros Hl. unfold call_fun. unfold_monad. simpl.
  specialize (Hext f args kw (st_heap s) Hl).
  destruct (fun_body E f args kw (st_heap s)) as [r h'] eqn:Hf. simpl in *.
  by destruct r.
Qed.

Lemma instantiate_view c args kw s :
  is_Some (st_heap s !! l) →
  adapter_view (st_heap (instantiate E c args kw s).2) l =
  adapter_view (st_heap s) l.
Proof.
  intros Hl. unfold instantiate.
  destruct (cls_abstract (classes E c)); first done.
  assert (Hne : fresh (dom (st_heap s)) ≠ l).
  { intros Heq. apply (is_fresh (dom (st_heap s))). rewrite Heq.
    by apply elem_of_dom. }
  set (l' := fresh (dom (st_heap s))) in *.
  unfold bind at 1. simpl. unfold bind at 1. simpl. unfold bind at 1. simpl.
  set (s1 := State _ _).
  assert (Hs1 : adapter_view (st_heap s1) l = adapter_view (st_heap s) l)
    by (subst s1; simpl; by apply adapter_view_insert_ne).
  assert (Hl1 : is_Some (st_heap s1 !! l))
    by (by eapply adapter_view_allocated).
  destruct (class_lookup E c "__init__") as [v|].
  - destruct v; try (simpl; exact Hs1).
    unfold bind.
    match goal with
    | |- context [call_fun ?E' ?b ?g ?xs ?k ?st] =>
        pose proof (call_fun_view b g xs k st Hl1) as Hc;
        destruct (call_fun E' b g xs k st) as [[r|e] s2]
    end; [destruct r|]; exact (eq_trans Hc Hs1).
  - destruct args, kw; simpl; exact Hs1.
Qed.

Lemma call_view callee args kw s :
  is_Some (st_heap s !! l) →
  adapter_view (st_heap (call E callee args kw s).2) l = adapter_view (st_heap s) l.
Proof.
  intros Hl. destruct callee; simpl; try done.
  - by apply instantiate_view.
  - by apply call_fun_view.
  - by apply call_fun_view.
  - unfold bind, get_heap. simpl.
    repeat case_match; try done; by apply call_fun_view.
Qed.

Lemma call_attr_view v name args kw s :
  is_Some (st_heap s !! l) →
  adapter_view (st_heap (call_attr E v name args kw s).2) l =
  adapter_view (st_heap s) l.
Proof.
  intros Hl. unfold call_attr, bind.
  pose proof (getattr_state E v name s) as Hg.
  destruct (getattr E v name s) as [[f|e] s1]; simpl in Hg; subst s1; last done.
  by apply call_view.
Qed.

End Preservation.

Section Properties.
Context (E : env).

(** C4.  For every [pdf] and every optional [lb] and [ub] the construction
    succeeds.  It never calls [pdf]: the only events it logs are the new
    object and the call of the initialiser of the base class with
    [momtype=0], [a=lb], [b=ub] (an absent bound is [None]).  The new
    instance stores [pdf] unchanged, the moment type 0, and the bounds, a
    bound that is absent being minus infinity (lower) and plus infinity
    (upper).  All other objects of the heap stay as they are. *)
Theorem construction_succeeds (pdf : value) (lb ub : option value) (s : state) :
  let l := fresh (dom (st_heap s)) in
  ∃ o : obj,
    ContinuousFactor.new pdf lb ub s =
      (Ok (VObj l),
       State (<[l := o]> (st_heap s))
             (st_log s ++
              [EvNew ContinuousFactor.class_name l;
               EvCall (VFun "scipy.stats.rv_continuous.__init__") [VObj l]
                 [("momtype", VInt 0); ("a", default VNone lb);
                  ("b", default VNone ub)]]))
    ∧ st_heap s !! l = None
    ∧ obj_class o = ContinuousFactor.class_name
    ∧ obj_dict o !! "pdf" = Some pdf
    ∧ obj_dict o !! "moment_type" = Some (VInt 0)
    ∧ obj_dict o !! "a" = Some (stored_bound neg_infinity lb)
    ∧ obj_dict o !! "b" = Some (stored_bound infinity ub).
Proof.
  intros l. exists (built pdf lb ub). split; first by apply new_run.
  split; first by apply not_elem_of_dom, is_fresh.
  split; first done.
  auto using built_pdf, built_moment_type, built_a, built_b.
Qed.

(** C3.  For every density function [f], all bounds and every argument
    tuple [x]: on the adapter built from [f] and the bounds, [_pdf] applied
    to [x] is the call of [f] on [x], result and state alike. *)
Theorem pdf_method_returns_density (f : value) (lb ub : option value)
    (x : list value) (s : state) :
  ∃ l s1,
    ContinuousFactor.new f lb ub s = (Ok (VObj l), s1)
    ∧ ContinuousFactor._pdf E (VObj l) x s1 = call E f x [] s1.
Proof.
  eexists _, _. split; first by apply new_run.
  unfold ContinuousFactor._pdf.
  eapply call_attr_instance; simpl; [apply lookup_insert_eq | apply built_pdf].
Qed.

(** C9.  The attribute [pdf] the constructor sets on the instance hides the
    method [pdf] of the base class, whatever the classes define under that
    name: on the adapter built from [f], reading the attribute [pdf] gives
    [f] itself, and calling it with any arguments, inside the bounds or
    outside, is the call of [f] on these arguments. *)
Theorem public_pdf_is_user_function (f : value) (lb ub : option value)
    (x : list value) (kw : kwargs) (s : state) :
  ∃ l s1,
    ContinuousFactor.new f lb ub s = (Ok (VObj l), s1)
    ∧ getattr E (VObj l) "pdf" s1 = (Ok f, s1)
    ∧ call_attr E (VObj l) "pdf" x kw s1 = call E f x kw s1.
Proof.
  eexists _, _. split; first by apply new_run.
  split.
  - eapply getattr_instance; simpl; [apply lookup_insert_eq | apply built_pdf].
  - eapply call_attr_instance; simpl; [apply lookup_insert_eq | apply built_pdf].
Qed.

(** C5.  When the stored density function raises, [_pdf] raises the same
    exception and leaves the state the function left: nothing is caught,
    wrapped or retried. *)
Theorem pdf_method_propagates_error (l : loc) (o : obj) (f : value)
    (args : list value) (s s' : state) (e : exn) :
  st_heap s !! l = Some o →
  obj_dict o !! "pdf" = Some f →
  call E f args [] s = (Raise e, s') →
  ContinuousFactor._pdf E (VObj l) args s = (Raise e, s').
Proof.
  intros Hl Hf Hcall. unfold ContinuousFactor._pdf.
  by rewrite (call_attr_instance E _ _ _ _ _ _ _ Hl Hf).
Qed.

(** C1.  For every adapter, every class [D] that passes the subclass test
    against the discretizer base, and all arguments: [discretize] is the
    direct computation, building [D(adapter, args, kw)] and asking it for
    its discrete values.  The two agree on the result, be it a value or an
    exception, and on the state they leave. *)
Theorem discretize_is_direct (adapter : value) (D : class_id)
    (args : list value) (kw : kwargs) (s : state) :
  issubclass E (VClass D) ContinuousFactor.BaseDiscretizer = Ok true →
  ContinuousFactor.discretize E adapter (VClass D) args kw s =
  direct_discretize E D adapter args kw s.
Proof.
  intros Hsub. unfold ContinuousFactor.discretize, direct_discretize.
  unfold bind at 1, lift. by rewrite Hsub.
Qed.

(** C2, as the code has it.  For every [method] that is not a subclass of
    the discretizer base, [discretize] raises a [TypeError] and leaves the
    state as it was: no object is built, nothing is called.  When [method]
    is a class, the message is the text of [method] followed by
    [" must be Discretizer class."], so it names the offending value. *)
Theorem discretize_rejects_invalid_method (self method : value)
    (args : list value) (kw : kwargs) (s : state) :
  issubclass E method ContinuousFactor.BaseDiscretizer ≠ Ok true →
  ∃ msg : string,
    ContinuousFactor.discretize E self method args kw s = (Raise (TypeError msg), s)
    ∧ ∀ c, method = VClass c →
        msg = py_str E method ++ " must be Discretizer class."
        ∧ names_value E msg method.
Proof.
  intros Hsub. unfold ContinuousFactor.discretize, bind, lift.
  destruct (issubclass E method ContinuousFactor.BaseDiscretizer) as [[]|e] eqn:Hi;
    first done.
  - eexists. split; first done. intros c ->. split; first done.
    unfold names_value. apply contains_prefix.
  - destruct method; simpl in Hi; try discriminate; inversion Hi; subst;
      (eexists; split; [done | intros c' Hc; discriminate]).
Qed.

(** C10.  For every [method] the subclass test rejects (it answers false,
    or it raises because [method] is no class), [discretize] raises and the
    state after it is the state before it: the heap, and with it the
    adapter's density function and bounds, is unchanged, no object was
    allocated, and the log shows no call, neither of a constructor nor of
    [get_discrete_values]. *)
Theorem discretize_error_is_atomic (self method : value)
    (args : list value) (kw : kwargs) (s : state) :
  issubclass E method ContinuousFactor.BaseDiscretizer ≠ Ok true →
  ∃ e : exn,
    ContinuousFactor.discretize E self method args kw s = (Raise e, s).
Proof.
  intros Hsub. unfold ContinuousFactor.discretize, bind, lift.
  destruct (issubclass E method ContinuousFactor.BaseDiscretizer) as [[]|e];
    [done | by eexists | by eexists].
Qed.

(** C6.  The stored density function and the bounds are an invariant of the
    class: when the code outside the class (the density function, the
    discretizers) leaves them alone on an allocated adapter, being free to
    allocate objects of its own, so does every run of [_pdf] and of
    [discretize], whether it returns or raises. *)
Theorem adapter_is_never_rebound (l : loc) (s : state) :
  is_Some (st_heap s !! l) →
  externals_preserve E l →
  (∀ args,
     adapter_view (st_heap (ContinuousFactor._pdf E (VObj l) args s).2) l =
     adapter_view (st_heap s) l)
  ∧ (∀ method args kw,
     adapter_view (st_heap (ContinuousFactor.discretize E (VObj l) method args kw s).2) l =
     adapter_view (st_heap s) l).
Proof.
  intros Hl Hext. split.
  - intros args. by apply call_attr_view.
  - intros method args kw. unfold ContinuousFactor.discretize, bind at 1, lift.
    destruct (issubclass E method ContinuousFactor.BaseDiscretizer) as [[]|e];
      simpl; try done.
    unfold bind.
    pose proof (call_view E l Hext method (VObj l :: args) kw s Hl) as Hc.
    destruct (call E method (VObj l :: args) kw s) as [[inst|e] s1]; simpl in *;
      last done.
    rewrite -Hc. apply call_attr_view; first done.
    by eapply adapter_view_allocated.
Qed.

(** C8.  When the stored density function is pure, the result of [_pdf] on
    given arguments is the same in any two states in which the adapter is
    the same object: two calls with the same input and no mutation of the
    adapter between them return the same output. *)
Theorem pdf_method_deterministic (l : loc) (o : obj) (f : fun_id)
    (args : list value) (s1 s2 : state) :
  st_heap s1 !! l = Some o →
  st_heap s2 !! l = Some o →
  obj_dict o !! "pdf" = Some (VFun f) →
  pure_callable (fun_body E f) →
  (ContinuousFactor._pdf E (VObj l) args s1).1 =
  (ContinuousFactor._pdf E (VObj l) args s2).1.
Proof.
  intros H1 H2 Hf [g Hg]. unfold ContinuousFactor._pdf.
  rewrite (call_attr_instance E _ _ _ _ _ _ _ H1 Hf).
  rewrite (call_attr_instance E _ _ _ _ _ _ _ H2 Hf).
  simpl. unfold call_fun. unfold_monad. simpl. by rewrite !Hg.
Qed.

End Properties.

(* ===================================================================== *)
(** ** The examples *)
(* ===================================================================== *)

(** C7.  The adapter of the docstring, built from the density that is 0.5
    between -1 and 1 and 0 elsewhere, with the bounds -3 and 3: the density
    evaluated at 0 is 0.5 and at 2 it is 0, for the integers and for the
    floats 0.0 and 2.0. *)
Theorem custom_pdf_scenario :
  Demo.node_built.1 = Ok Demo.node
  ∧ (ContinuousFactor._pdf Demo.E Demo.node [VInt 0] Demo.s_node).1 = Ok (VFloat 0.5)
  ∧ (ContinuousFactor._pdf Demo.E Demo.node [VInt 2] Demo.s_node).1 = Ok (VInt 0)
  ∧ (ContinuousFactor._pdf Demo.E Demo.node [VFloat 0] Demo.s_node).1 = Ok (VFloat 0.5)
  ∧ (ContinuousFactor._pdf Demo.E Demo.node [VFloat 2] Demo.s_node).1 = Ok (VInt 0).
Proof. repeat split; vm_compute; reflexivity. Qed.

(** The method [pdf] of the library would answer 0 at 0.75 for the bounds
    -0.5 and 0.5; the attribute of the adapter answers what the density
    says, 0.5. *)
Example library_pdf_is_hidden :
  class_lookup Demo.E ContinuousFactor.class_name "pdf"
    = Some (VFun "scipy.stats.rv_continuous.pdf")
  ∧ (call Demo.E (VBound "scipy.stats.rv_continuous.pdf" 1) [VFloat 0.75] []
       Demo.s_narrow).1 = Ok (VFloat 0)
  ∧ (call_attr Demo.E Demo.node "pdf" [VFloat 0.75] [] Demo.s_narrow).1
    = Ok (VFloat 0.5).
Proof. repeat split; vm_compute; reflexivity. Qed.

(** [node.discretize(EchoDiscretizer, 0, 5, 10)]: the discretizer was built
    with the adapter first and the three arguments after it. *)
Example discretize_echo :
  (ContinuousFactor.discretize Demo.E Demo.node (VClass Demo.EchoDiscretizer)
     [VInt 0; VInt 5; VInt 10] [] Demo.s_node).1
  = Ok (VList [Demo.node; VInt 0; VInt 5; VInt 10]).
Proof. vm_compute. reflexivity. Qed.

(** The allocating discretizer runs through [discretize]: discretizer at 2,
    helper at 3. *)
Example discretize_alloc :
  (ContinuousFactor.discretize DemoAlloc.E Demo.node
     (VClass DemoAlloc.AllocDiscretizer) [VInt 0; VInt 5; VInt 10] [] Demo.s_node).1
  = Ok (VList [VObj 3]).
Proof. vm_compute. reflexivity. Qed.

Lemma discretize_is_direct_witness :
  issubclass Demo.E (VClass Demo.EchoDiscretizer) ContinuousFactor.BaseDiscretizer
    = Ok true
  ∧ ContinuousFactor.discretize Demo.E Demo.node (VClass Demo.EchoDiscretizer)
      [VInt 0; VInt 5; VInt 10] [] Demo.s_node
    = direct_discretize Demo.E Demo.EchoDiscretizer Demo.node
        [VInt 0; VInt 5; VInt 10] [] Demo.s_node.
Proof.
  split; [vm_compute; reflexivity |].
  apply (discretize_is_direct Demo.E). vm_compute. reflexivity.
Defined.

(** C2, as the specification has it, fails on an integer: the [TypeError] of
    [node.discretize(5)] is the one of the subclass test, and its message
    does not name 5. *)
Lemma discretize_int_error_does_not_name_value :
  issubclass Demo.E (VInt 5) ContinuousFactor.BaseDiscretizer ≠ Ok true
  ∧ ContinuousFactor.discretize Demo.E Demo.node (VInt 5) [] [] Demo.s_node
    = (Raise (TypeError "issubclass() arg 1 must be a class"), Demo.s_node)
  ∧ ¬ ∃ msg : string,
      ContinuousFactor.discretize Demo.E Demo.node (VInt 5) [] [] Demo.s_node
        = (Raise (TypeError msg), Demo.s_node)
      ∧ names_value Demo.E msg (VInt 5).
Proof.
  split; first discriminate. split; first reflexivity.
  intros (msg & Hrun & Hnames).
  change (ContinuousFactor.discretize Demo.E Demo.node (VInt 5) [] [] Demo.s_node)
    with (@Raise value (TypeError "issubclass() arg 1 must be a class"), Demo.s_node)
    in Hrun.
  injection Hrun as <-. vm_compute in Hnames. discriminate.
Qed.

Lemma discretize_rejects_invalid_method_witness :
  issubclass Demo.E (VClass Demo.Unrelated) ContinuousFactor.BaseDiscretizer ≠ Ok true
  ∧ ∃ msg : string,
      ContinuousFactor.discretize Demo.E Demo.node (VClass Demo.Unrelated)
        [VInt 0; VInt 5; VInt 10] [] Demo.s_node = (Raise (TypeError msg), Demo.s_node)
      ∧ ∀ c, VClass Demo.Unrelated = VClass c →
          msg = py_str Demo.E (VClass Demo.Unrelated) ++ " must be Discretizer class."
          ∧ names_value Demo.E msg (VClass Demo.Unrelated).
Proof.
  split; [vm_compute; discriminate |].
  apply (discretize_rejects_invalid_method Demo.E). vm_compute. discriminate.
Defined.

Lemma discretize_error_is_atomic_witness :
  issubclass Demo.E (VInt 5) ContinuousFactor.BaseDiscretizer ≠ Ok true
  ∧ ∃ e : exn,
      ContinuousFactor.discretize Demo.E Demo.node (VInt 5)
        [VInt 0; VInt 5; VInt 10] [] Demo.s_node = (Raise e, Demo.s_node).
Proof.
  split; [vm_compute; discriminate |].
  apply (discretize_error_is_atomic Demo.E). vm_compute. discriminate.
Defined.

Lemma pdf_method_propagates_error_witness :
  st_heap Demo.s_bad !! 1%positive = Some (built (VFun "bad_pdf") None None)
  ∧ obj_dict (built (VFun "bad_pdf") None None) !! "pdf" = Some (VFun "bad_pdf")
  ∧ call Demo.E (VFun "bad_pdf") [VInt 0] [] Demo.s_bad
    = (Raise (Exn "ZeroDivisionError" "division by zero"),
       State (st_heap Demo.s_bad)
         (st_log Demo.s_bad ++ [EvCall (VFun "bad_pdf") [VInt 0] []]))
  ∧ ContinuousFactor._pdf Demo.E (VObj 1) [VInt 0] Demo.s_bad
    = (Raise (Exn "ZeroDivisionError" "division by zero"),
       State (st_heap Demo.s_bad)
         (st_log Demo.s_bad ++ [EvCall (VFun "bad_pdf") [VInt 0] []])).
Proof.
  split; [vm_compute; reflexivity |].
  split; [vm_compute; reflexivity |].
  split; [vm_compute; reflexivity |].
  apply (pdf_method_propagates_error Demo.E 1%positive (built (VFun "bad_pdf") None None)
           (VFun "bad_pdf")); vm_compute; reflexivity.
Defined.

(** The functions of the example program leave an adapter's density function
    and bounds alone: the only attributes they write are those of a
    discretizer. *)
Lemma heap_setattr_view (h : heap) (l l' : loc) (name : string) (x : value) :
  name ≠ "pdf" → name ≠ "a" → name ≠ "b" →
  adapter_view (Demo.heap_setattr h l' name x) l = adapter_view h l.
Proof.
  intros Hp Ha Hb. unfold Demo.heap_setattr, adapter_view.
  destruct (h !! l') as [o|] eqn:Hl'; last done.
  destruct (decide (l' = l)) as [->|Hne].
  - rewrite lookup_insert_eq Hl'. simpl. by rewrite !lookup_insert_ne.
  - by rewrite lookup_insert_ne.
Qed.

Lemma demo_externals_preserve (l : loc) : externals_preserve Demo.E l.
Proof.
  intros f args kw h _. simpl. unfold Demo.fun_body.
  repeat (case_match; [|]).
  - unfold Demo.custom_pdf. repeat case_match; done.
  - unfold Demo.bad_pdf. repeat case_match; done.
  - unfold Demo.discretizer_init. repeat case_match; try done. simpl.
    by rewrite !heap_setattr_view.
  - unfold Demo.echo_values. repeat case_match; done.
  - unfold Demo.library_pdf. repeat case_match; done.
  - done.
Qed.

(** So do the functions of the program with the allocating discretizer: the
    helper goes to a free location, which is not the adapter's. *)
Lemma demo_alloc_externals_preserve (l : loc) : externals_preserve DemoAlloc.E l.
Proof.
  intros f args kw h Hl. simpl. unfold DemoAlloc.fun_body.
  case_match; last by apply (demo_externals_preserve l f args kw h Hl).
  unfold DemoAlloc.alloc_values. repeat case_match; try done. simpl.
  unfold adapter_view. rewrite lookup_insert_ne; last done.
  intros Heq. apply (is_fresh (dom h)). rewrite Heq. by apply elem_of_dom.
Qed.

(** Without the proviso that the adapter is allocated the allocating
    discretizer would not pass: on the empty heap its helper takes the
    location 1. *)
Remark alloc_values_takes_free_location :
  adapter_view (fun_body DemoAlloc.E "AllocDiscretizer.get_discrete_values"
                  [VObj 2] [] ∅).2 1
  ≠ adapter_view ∅ 1.
Proof. vm_compute. discriminate. Qed.

Lemma custom_pdf_pure : pure_callable (fun_body Demo.E "custom_pdf").
Proof.
  exists (λ args kw, (Demo.custom_pdf args kw ∅).1). intros args kw h.
  change (fun_body Demo.E "custom_pdf") with Demo.custom_pdf.
  unfold Demo.custom_pdf. repeat case_match; done.
Qed.

Lemma adapter_is_never_rebound_witness :
  is_Some (st_heap Demo.s_node !! 1%positive)
  ∧ externals_preserve DemoAlloc.E 1
  ∧ (∀ args,
       adapter_view
         (st_heap (ContinuousFactor._pdf DemoAlloc.E (VObj 1) args Demo.s_node).2) 1 =
       adapter_view (st_heap Demo.s_node) 1)
  ∧ (∀ method args kw,
       adapter_view
         (st_heap (ContinuousFactor.discretize DemoAlloc.E (VObj 1) method args kw
                     Demo.s_node).2) 1 =
       adapter_view (st_heap Demo.s_node) 1).
Proof.
  split; [vm_compute; eauto |].
  split; [apply demo_alloc_externals_preserve |].
  apply (adapter_is_never_rebound DemoAlloc.E 1%positive Demo.s_node);
    [vm_compute; eauto | apply demo_alloc_externals_preserve].
Defined.

(** Two calls in a row: the second starts in the state the first left. *)
Lemma pdf_method_deterministic_witness :
  let s2 := (ContinuousFactor._pdf Demo.E (VObj 1) [VInt 0] Demo.s_node).2 in
  st_heap Demo.s_node !! 1%positive
    = Some (built (VFun "custom_pdf") (Some (VInt (-3))) (Some (VInt 3)))
  ∧ st_heap s2 !! 1%positive
    = Some (built (VFun "custom_pdf") (Some (VInt (-3))) (Some (VInt 3)))
  ∧ obj_dict (built (VFun "custom_pdf") (Some (VInt (-3))) (Some (VInt 3))) !! "pdf"
    = Some (VFun "custom_pdf")
  ∧ pure_callable (fun_body Demo.E "custom_pdf")
  ∧ (ContinuousFactor._pdf Demo.E (VObj 1) [VInt 0] Demo.s_node).1
    = (ContinuousFactor._pdf Demo.E (VObj 1) [VInt 0] s2).1.
Proof.
  intros s2.
  split; [vm_compute; reflexivity |].
  split; [vm_compute; reflexivity |].
  split; [vm_compute; reflexivity |].
  split; [apply custom_pdf_pure |].
  apply (pdf_method_deterministic Demo.E 1%positive
           (built (VFun "custom_pdf") (Some (VInt (-3))) (Some (VInt 3)))
           "custom_pdf" [VInt 0] Demo.s_node s2);
    [vm_compute; reflexivity | vm_compute; reflexivity | vm_compute; reflexivity
    | apply custom_pdf_pure].
Defined.

(* ===================================================================== *)
(** ** Further properties of the three methods *)
(* ===================================================================== *)

Section Log.
Context (E : env).

(** The adapter's code only ever appends to the log. *)
Lemma call_fun_log callee f args kw s :
  st_log (call_fun E callee f args kw s).2 = (st_log s ++ [EvCall callee args kw])%list.
Proof.
  unfold call_fun. unfold_monad. simpl.
  by destruct (fun_body E f args kw (st_heap s)) as [[r|e] h'].
Qed.

Lemma call_fun_heap callee f args kw s :
  (call_fun E callee f args kw s).1 = (fun_body E f args kw (st_heap s)).1
  ∧ st_heap (call_fun E callee f args kw s).2 = (fun_body E f args kw (st_heap s)).2.
Proof.
  unfold call_fun. unfold_monad. simpl.
  by destruct (fun_body E f args kw (st_heap s)) as [[r|e] h'].
Qed.

Lemma instantiate_log c args kw s :
  ∃ rest, st_log (instantiate E c args kw s).2 = (st_log s ++ rest)%list.
Proof.
  unfold instantiate.
  destruct (cls_abstract (classes E c)); first by (exists []; rewrite app_nil_r).
  unfold bind at 1. simpl. unfold bind at 1. simpl. unfold bind at 1. simpl.
  destruct (class_lookup E c "__init__") as [v|].
  - destruct v; try (by eexists).
    unfold bind.
    match goal with
    | |- context [call_fun ?E' ?b ?g ?xs ?k ?st] =>
        pose proof (call_fun_log b g xs k st) as Hc;
        destruct (call_fun E' b g xs k st) as [[r|e] s2]
    end; simpl in Hc; [destruct r|]; simpl; rewrite Hc -app_assoc; by eexists.
  - destruct args, kw; by eexists.
Qed.

Lemma call_log callee args kw s :
  ∃ rest, st_log (call E callee args kw s).2 = (st_log s ++ rest)%list.
Proof.
  destruct callee; simpl; try (by exists []; rewrite app_nil_r).
  - apply instantiate_log.
  - rewrite call_fun_log. by eexists.
  - rewrite call_fun_log. by eexists.
  - unfold bind, get_heap. simpl.
    repeat case_match; try (by exists []; rewrite app_nil_r);
      rewrite call_fun_log; by eexists.
Qed.

Lemma call_attr_log v name args kw s :
  ∃ rest, st_log (call_attr E v name args kw s).2 = (st_log s ++ rest)%list.
Proof.
  unfold call_attr, bind.
  pose proof (getattr_state E v name s) as Hg.
  destruct (getattr E v name s) as [[f|e] s1]; simpl in Hg; subst s1.
  - apply call_log.
  - exists []. by rewrite app_nil_r.
Qed.

End Log.

Section Further.
Context (E : env).

(** X1.  [_pdf] evaluates the stored density function exactly once, on
    exactly the arguments it was given and with no keyword argument: the
    result and the heap are those of the one run of the function, and the log
    grows by that one call. *)
Theorem pdf_method_calls_density_once (l : loc) (o : obj) (f : fun_id)
    (args : list value) (s : state) :
  st_heap s !! l = Some o →
  obj_dict o !! "pdf" = Some (VFun f) →
  ContinuousFactor._pdf E (VObj l) args s =
    ((fun_body E f args [] (st_heap s)).1,
     State (fun_body E f args [] (st_heap s)).2
           (st_log s ++ [EvCall (VFun f) args []])).
Proof.
  intros Hl Hf. unfold ContinuousFactor._pdf.
  rewrite (call_attr_instance E _ _ _ _ _ _ _ Hl Hf). simpl.
  unfold call_fun. unfold_monad. simpl.
  by destruct (fun_body E f args [] (st_heap s)) as [r h'].
Qed.

(** X2.  A density that cannot be called is accepted by the constructor and
    fails only when it is evaluated: for [None], a boolean, a number, a
    string or a list as [pdf] the construction succeeds, and [_pdf] on the
    new adapter raises the [TypeError] of the call, ['T' object is not
    callable] for the type [T] of the value, and changes nothing. *)
Theorem non_callable_density_fails_at_evaluation (pdf : value)
    (lb ub : option value) (x : list value) (s : state) :
  is_plain_data pdf = true →
  ∃ l s1,
    ContinuousFactor.new pdf lb ub s = (Ok (VObj l), s1)
    ∧ ContinuousFactor._pdf E (VObj l) x s1 =
        (Raise (TypeError ("'" ++ type_name ∅ pdf ++ "' object is not callable")), s1).
Proof.
  intros Hdata. eexists _, _. split; first by apply new_run.
  unfold ContinuousFactor._pdf.
  erewrite call_attr_instance;
    [| simpl; apply lookup_insert_eq | apply built_pdf].
  by destruct pdf.
Qed.

(** X3.  Adapters are independent objects.  Building a second adapter gives
    a location different from the first, leaves the first as it was, and
    afterwards each adapter evaluates its own density function. *)
Theorem adapters_are_independent (f1 f2 : value) (lb1 ub1 lb2 ub2 : option value)
    (x : list value) (s : state) :
  ∃ l1 l2 s1 s2,
    ContinuousFactor.new f1 lb1 ub1 s = (Ok (VObj l1), s1)
    ∧ ContinuousFactor.new f2 lb2 ub2 s1 = (Ok (VObj l2), s2)
    ∧ l1 ≠ l2
    ∧ st_heap s2 !! l1 = st_heap s1 !! l1
    ∧ ContinuousFactor._pdf E (VObj l1) x s2 = call E f1 x [] s2
    ∧ ContinuousFactor._pdf E (VObj l2) x s2 = call E f2 x [] s2.
Proof.
  eexists _, _, _, _. split; first by apply new_run.
  split; first by apply new_run.
  simpl. set (l1 := fresh (dom (st_heap s))).
  set (h1 := <[l1 := built f1 lb1 ub1]> (st_heap s)).
  assert (Hne : fresh (dom h1) ≠ l1).
  { intros Heq. apply (is_fresh (dom h1)). rewrite Heq.
    apply elem_of_dom. subst h1. rewrite lookup_insert_eq. by eexists. }
  split; first done.
  split; first by rewrite lookup_insert_ne.
  unfold ContinuousFactor._pdf. split.
  - eapply call_attr_instance; last apply built_pdf.
    simpl. rewrite lookup_insert_ne; first done. subst h1. apply lookup_insert_eq.
  - eapply call_attr_instance; last apply built_pdf. simpl. apply lookup_insert_eq.
Qed.

(** X4.  [_pdf] reads the attribute [pdf] at every call: once a caller has
    assigned another function [g] to it, [_pdf] evaluates [g]. *)
Theorem pdf_method_reads_current_attribute (l : loc) (o : obj) (g : value)
    (args : list value) (s : state) :
  st_heap s !! l = Some o →
  ∃ s',
    setattr (VObj l) "pdf" g s = (Ok tt, s')
    ∧ ContinuousFactor._pdf E (VObj l) args s' = call E g args [] s'.
Proof.
  intros Hl. eexists. split; first by apply setattr_obj.
  unfold ContinuousFactor._pdf.
  eapply call_attr_instance; simpl; [apply lookup_insert_eq |].
  simpl. apply lookup_insert_eq.
Qed.

(** X5.  A discretization does not disturb the adapter for what comes after
    it: when the code outside the class leaves the attributes of the
    allocated adapter alone (it may allocate objects of its own), then after
    [discretize], whether it returned or raised and whatever [method] was,
    [_pdf] still evaluates the density function stored before. *)
Theorem pdf_method_after_discretize (l : loc) (o : obj) (f method : value)
    (args x : list value) (kw : kwargs) (s : state) :
  st_heap s !! l = Some o →
  obj_dict o !! "pdf" = Some f →
  externals_preserve E l →
  let s' := (ContinuousFactor.discretize E (VObj l) method args kw s).2 in
  ContinuousFactor._pdf E (VObj l) x s' = call E f x [] s'.
Proof.
  intros Hl Hf Hext s'.
  assert (Hview : adapter_view (st_heap s') l = adapter_view (st_heap s) l).
  { subst s'. unfold ContinuousFactor.discretize, bind at 1, lift.
    destruct (issubclass E method ContinuousFactor.BaseDiscretizer) as [[]|e];
      simpl; try done.
    unfold bind.
    pose proof (call_view E l Hext method (VObj l :: args) kw s
                  (ex_intro _ o Hl)) as Hc.
    destruct (call E method (VObj l :: args) kw s) as [[inst|e] s1]; simpl in *;
      last done.
    rewrite -Hc. apply call_attr_view; first done.
    eapply adapter_view_allocated; [exact Hc | by eexists]. }
  unfold adapter_view in Hview. rewrite Hl in Hview. simpl in Hview.
  destruct (st_heap s' !! l) as [o'|] eqn:Hl'; last done.
  simpl in Hview. injection Hview as Hp _ _.
  unfold ContinuousFactor._pdf.
  eapply call_attr_instance; first exact Hl'. by rewrite Hp.
Qed.

(** X6.  [discretize] wants a class: a [method] that is no class, be it a
    number, a function or an instance of a discretizer, is refused by the
    subclass test with the [TypeError] of the built-in, and nothing else
    happens. *)
Theorem discretize_refuses_non_class (self method : value)
    (args : list value) (kw : kwargs) (s : state) :
  is_class method = false →
  ContinuousFactor.discretize E self method args kw s =
    (Raise (TypeError "issubclass() arg 1 must be a class"), s).
Proof. intros Hc. by destruct method. Qed.

(** X7.  [discretize] hands its arguments on as they are.  For a class [D]
    that passes the subclass test, is not abstract and takes its [__init__]
    from a function, the new discretizer is allocated at a fresh location
    and its [__init__] is called on it with the adapter as the first
    argument, the positional arguments after it in their order and the
    keyword arguments unchanged; whatever else [discretize] does comes after
    these two events. *)
Theorem discretize_forwards_arguments (self : value) (D : class_id)
    (init : fun_id) (args : list value) (kw : kwargs) (s : state) :
  issubclass E (VClass D) ContinuousFactor.BaseDiscretizer = Ok true →
  cls_abstract (classes E D) = false →
  class_lookup E D "__init__" = Some (VFun init) →
  let l := fresh (dom (st_heap s)) in
  ∃ rest,
    st_log (ContinuousFactor.discretize E self (VClass D) args kw s).2 =
      (st_log s ++
       EvNew D l :: EvCall (VBound init l) (VObj l :: self :: args) kw :: rest)%list.
Proof.
  intros Hsub Habs Hinit l.
  unfold ContinuousFactor.discretize, bind at 1, lift. rewrite Hsub. simpl.
  unfold instantiate. rewrite Habs Hinit.
  unfold bind at 1. unfold bind at 1. simpl. fold l.
  unfold bind at 1. simpl. unfold bind at 1. simpl. unfold bind at 1.
  match goal with
  | |- context [call_fun ?E' ?b ?g ?xs ?k ?st] =>
      pose proof (call_fun_log E' b g xs k st) as Hc;
      destruct (call_fun E' b g xs k st) as [[r|e] s2]
  end; simpl in Hc.
  - destruct r; simpl;
      try (exists []; by rewrite Hc -app_assoc).
    destruct (call_attr_log E (VObj l) "get_discrete_values" [] [] s2) as [rest Hr].
    exists rest. by rewrite Hr Hc -!app_assoc.
  - exists []. by rewrite Hc -app_assoc.
Qed.

(** X8.  The subclass test lets an abstract class through, the base class
    itself included: for an abstract [D] that passes the test, [discretize]
    does not raise its own error but fails in the instantiation, with a
    [TypeError] that says the class cannot be instantiated, before any object
    is allocated or any function is called. *)
Theorem discretize_abstract_class (self : value) (D : class_id)
    (args : list value) (kw : kwargs) (s : state) :
  issubclass E (VClass D) ContinuousFactor.BaseDiscretizer = Ok true →
  cls_abstract (classes E D) = true →
  ∃ msg : string,
    ContinuousFactor.discretize E self (VClass D) args kw s =
      (Raise (TypeError msg), s)
    ∧ String.prefix "Can't instantiate abstract class" msg = true
    ∧ msg ≠ py_str E (VClass D) ++ " must be Discretizer class.".
Proof.
  intros Hsub Habs.
  unfold ContinuousFactor.discretize, bind at 1, lift. rewrite Hsub. simpl.
  unfold instantiate, bind. rewrite Habs. simpl.
  eexists. split; first done. split; first done. discriminate.
Qed.

End Further.

Lemma pdf_method_calls_density_once_witness :
  st_heap Demo.s_node !! 1%positive
    = Some (built (VFun "custom_pdf") (Some (VInt (-3))) (Some (VInt 3)))
  ∧ obj_dict (built (VFun "custom_pdf") (Some (VInt (-3))) (Some (VInt 3))) !! "pdf"
    = Some (VFun "custom_pdf")
  ∧ ContinuousFactor._pdf Demo.E (VObj 1) [VInt 0] Demo.s_node =
      ((fun_body Demo.E "custom_pdf" [VInt 0] [] (st_heap Demo.s_node)).1,
       State (fun_body Demo.E "custom_pdf" [VInt 0] [] (st_heap Demo.s_node)).2
             (st_log Demo.s_node ++ [EvCall (VFun "custom_pdf") [VInt 0] []])).
Proof.
  split; [vm_compute; reflexivity |].
  split; [vm_compute; reflexivity |].
  apply (pdf_method_calls_density_once Demo.E 1%positive
           (built (VFun "custom_pdf") (Some (VInt (-3))) (Some (VInt 3))));
    vm_compute; reflexivity.
Defined.

Lemma non_callable_density_fails_at_evaluation_witness :
  is_plain_data (VInt 5) = true
  ∧ ∃ l s1,
      ContinuousFactor.new (VInt 5) None None Demo.s0 = (Ok (VObj l), s1)
      ∧ ContinuousFactor._pdf Demo.E (VObj l) [VInt 0] s1 =
          (Raise (TypeError ("'" ++ type_name ∅ (VInt 5) ++ "' object is not callable")),
           s1).
Proof.
  split; [reflexivity |].
  apply (non_callable_density_fails_at_evaluation Demo.E). reflexivity.
Defined.

Lemma pdf_method_reads_current_attribute_witness :
  st_heap Demo.s_node !! 1%positive
    = Some (built (VFun "custom_pdf") (Some (VInt (-3))) (Some (VInt 3)))
  ∧ ∃ s',
      setattr (VObj 1) "pdf" (VFun "bad_pdf") Demo.s_node = (Ok tt, s')
      ∧ ContinuousFactor._pdf Demo.E (VObj 1) [VInt 0] s'
        = call Demo.E (VFun "bad_pdf") [VInt 0] [] s'.
Proof.
  split; [vm_compute; reflexivity |].
  apply (pdf_method_reads_current_attribute Demo.E 1%positive
           (built (VFun "custom_pdf") (Some (VInt (-3))) (Some (VInt 3)))).
  vm_compute. reflexivity.
Defined.

Lemma pdf_method_after_discretize_witness :
  let s' := (ContinuousFactor.discretize DemoAlloc.E (VObj 1)
               (VClass DemoAlloc.AllocDiscretizer)
               [VInt 0; VInt 5; VInt 10] [] Demo.s_node).2 in
  st_heap Demo.s_node !! 1%positive
    = Some (built (VFun "custom_pdf") (Some (VInt (-3))) (Some (VInt 3)))
  ∧ obj_dict (built (VFun "custom_pdf") (Some (VInt (-3))) (Some (VInt 3))) !! "pdf"
    = Some (VFun "custom_pdf")
  ∧ externals_preserve DemoAlloc.E 1
  ∧ ContinuousFactor._pdf DemoAlloc.E (VObj 1) [VInt 0] s'
    = call DemoAlloc.E (VFun "custom_pdf") [VInt 0] [] s'.
Proof.
  intros s'.
  split; [vm_compute; reflexivity |].
  split; [vm_compute; reflexivity |].
  split; [apply demo_alloc_externals_preserve |].
  apply (pdf_method_after_discretize DemoAlloc.E 1%positive
           (built (VFun "custom_pdf") (Some (VInt (-3))) (Some (VInt 3)))
           (VFun "custom_pdf") (VClass DemoAlloc.AllocDiscretizer)
           [VInt 0; VInt 5; VInt 10] [VInt 0] [] Demo.s_node);
    [vm_compute; reflexivity | vm_compute; reflexivity
    | apply demo_alloc_externals_preserve].
Defined.

Lemma discretize_refuses_non_class_witness :
  is_class (VObj 1) = false
  ∧ ContinuousFactor.discretize Demo.E Demo.node (VObj 1)
      [VInt 0; VInt 5; VInt 10] [] Demo.s_node =
    (Raise (TypeError "issubclass() arg 1 must be a class"), Demo.s_node).
Proof.
  split; [reflexivity |].
  apply (discretize_refuses_non_class Demo.E). reflexivity.
Defined.

Lemma discretize_forwards_arguments_witness :
  issubclass Demo.E (VClass Demo.EchoDiscretizer) ContinuousFactor.BaseDiscretizer
    = Ok true
  ∧ cls_abstract (classes Demo.E Demo.EchoDiscretizer) = false
  ∧ class_lookup Demo.E Demo.EchoDiscretizer "__init__"
    = Some (VFun "BaseDiscretizer.__init__")
  ∧ ∃ rest,
      st_log (ContinuousFactor.discretize Demo.E Demo.node
                (VClass Demo.EchoDiscretizer) [VInt 0; VInt 5; VInt 10]
                [("extra", VInt 1)] Demo.s_node).2 =
        (st_log Demo.s_node ++
         EvNew Demo.EchoDiscretizer (fresh (dom (st_heap Demo.s_node)))
         :: EvCall (VBound "BaseDiscretizer.__init__" (fresh (dom (st_heap Demo.s_node))))
              (VObj (fresh (dom (st_heap Demo.s_node)))
               :: Demo.node :: [VInt 0; VInt 5; VInt 10])
              [("extra", VInt 1)]
         :: rest)%list.
Proof.
  split; [vm_compute; reflexivity |].
  split; [vm_compute; reflexivity |].
  split; [vm_compute; reflexivity |].
  apply (discretize_forwards_arguments Demo.E Demo.node Demo.EchoDiscretizer
           "BaseDiscretizer.__init__"); vm_compute; reflexivity.
Defined.

Lemma discretize_abstract_class_witness :
  issubclass Demo.E (VClass ContinuousFactor.BaseDiscretizer)
    ContinuousFactor.BaseDiscretizer = Ok true
  ∧ cls_abstract (classes Demo.E ContinuousFactor.BaseDiscretizer) = true
  ∧ ∃ msg : string,
      ContinuousFactor.discretize Demo.E Demo.node
        (VClass ContinuousFactor.BaseDiscretizer) [VInt 0; VInt 5; VInt 10] []
        Demo.s_node = (Raise (TypeError msg), Demo.s_node)
      ∧ String.prefix "Can't instantiate abstract class" msg = true
      ∧ msg ≠ py_str Demo.E (VClass ContinuousFactor.BaseDiscretizer)
              ++ " must be Discretizer class.".
Proof.
  split; [vm_compute; reflexivity |].
  split; [vm_compute; reflexivity |].
  apply (discretize_abstract_class Demo.E); vm_compute; reflexivity.
Defined.
